(** * Shallow embedding of [dask_creating_spatial_data.ipynb]

    The notebook reads tab-separated GeoNames dumps with
    [dd.read_csv(..., sep='\t', names=column_names, dtype=dtypes)],
    concatenates them with [dd.concat], keeps the rows with
    [feature class == 'T'], attaches [dg.points_from_xy(df, 'longitude',
    'latitude', crs='EPSG:4326')] as the [geometry] column, materialises the
    lazy collection with [from_dask_dataframe(...).compute()] and writes it
    with [to_file(driver='GPKG', filename=..., layer='mountains',
    encoding='utf-8')].

    The library calls are modelled by the behaviour they have on this input:
    - pandas' C parser splits each non-blank line on tabs, pads a short row
      with missing values, rejects a row with more fields than [names], maps
      the default NA strings to NaN and coerces each column to its declared
      dtype ([int] columns reject a missing value);
    - a Python float is kept as an exact decimal [m / 10^k] or NaN: rounding
      to binary64 is applied identically to every copy of a value and plays
      no part in the properties below;
    - a dask dataframe is an ordered list of partitions; row-wise operations
      act on each partition; [compute] concatenates the partitions in order;
    - [to_file] with its default mode ["w"] replaces a layer of the same
      name in an existing GeoPackage and keeps its other layers; mode ["a"]
      appends to the layer; any other mode is a [ValueError]. *)

From Stdlib Require Import String Ascii List ZArith Bool Lia.
From Stdlib Require Import Sorting.Permutation.
Import ListNotations.
Open Scope string_scope.

(** ** Results and errors *)

Inductive error :=
  | ParserError (line : nat)            (** more fields than column names *)
  | ValueError (column : string)        (** dtype coercion failed *)
  | ModeError (mode : string).          (** [to_file] with an unknown mode *)

Inductive result (A : Type) :=
  | Ok (a : A)
  | Err (e : error).
Arguments Ok {A} a.
Arguments Err {A} e.

Definition bind {A B} (m : result A) (f : A -> result B) : result B :=
  match m with
  | Ok a => f a
  | Err e => Err e
  end.

Notation "x <- m ;; k" := (bind m (fun x => k))
  (at level 61, m at next level, right associativity).

Fixpoint mapM {A B} (f : A -> result B) (l : list A) : result (list B) :=
  match l with
  | [] => Ok []
  | x :: xs => y <- f x ;; ys <- mapM f xs ;; Ok (y :: ys)
  end.

(** ** Python values *)

(** A Python float: an exact decimal [m / 10^k], or NaN (a missing value). *)
Inductive pyfloat :=
  | PFin (m : Z) (k : nat)
  | PNaN.

(** Python's [==] on floats: NaN is equal to nothing. *)
Definition float_eqb (a b : pyfloat) : bool :=
  match a, b with
  | PFin m1 k1, PFin m2 k2 =>
      Z.eqb (m1 * 10 ^ Z.of_nat k2) (m2 * 10 ^ Z.of_nat k1)
  | _, _ => false
  end.


(** An [object] cell: a string, or NaN for a missing value. *)
Definition pyobj := option string.

(** ** Schema *)

Definition column_names : list string :=
  [ "geonameid"; "name"; "asciiname"; "alternatenames";
    "latitude"; "longitude"; "feature class"; "feature code";
    "country code"; "cc2"; "admin1 code"; "admin2 code";
    "admin3 code"; "admin4 code"; "population"; "elevation";
    "dem"; "timezone"; "modification date" ].

Inductive dtype := DInt | DFloat | DObject.

Definition dtypes (c : string) : dtype :=
  if existsb (String.eqb c) ["geonameid"; "population"; "dem"] then DInt
  else if existsb (String.eqb c) ["latitude"; "longitude"; "elevation"] then DFloat
  else DObject.

(** One row of the loaded dataframe, column by column. *)
Record record := mkRecord {
  geonameid : Z;
  name : pyobj;
  asciiname : pyobj;
  alternatenames : pyobj;
  latitude : pyfloat;
  longitude : pyfloat;
  feature_class : pyobj;
  feature_code : pyobj;
  country_code : pyobj;
  cc2 : pyobj;
  admin1_code : pyobj;
  admin2_code : pyobj;
  admin3_code : pyobj;
  admin4_code : pyobj;
  population : Z;
  elevation : pyfloat;
  dem : Z;
  timezone : pyobj;
  modification_date : pyobj }.

(** ** Tokenising a line *)

Definition TAB : ascii := Ascii.ascii_of_nat 9.

(** [line.split('\t')]: always at least one field. *)
Fixpoint split_tab (s : string) : list string :=
  match s with
  | EmptyString => [""]
  | String c rest =>
      if Ascii.eqb c TAB then "" :: split_tab rest
      else match split_tab rest with
           | f :: fs => String c f :: fs
           | [] => [String c ""]
           end
  end.

(** A raw cell: [None] when the row was too short to reach the column. *)
Definition cell := option string.

(** pandas' default [na_values]. *)
Definition na_strings : list string :=
  [ ""; "#N/A"; "#N/A N/A"; "#NA"; "-1.#IND"; "-1.#QNAN"; "-NaN"; "-nan";
    "1.#IND"; "1.#QNAN"; "<NA>"; "N/A"; "NA"; "NULL"; "NaN"; "None";
    "n/a"; "nan"; "null" ].

Definition is_na (c : cell) : bool :=
  match c with
  | None => true
  | Some s => existsb (String.eqb s) na_strings
  end.

(** ** Number syntax *)

Definition digit_val (c : ascii) : option Z :=
  let n := Ascii.nat_of_ascii c in
  if (48 <=? n)%nat && (n <=? 57)%nat then Some (Z.of_nat (n - 48)) else None.

(** All characters of [s] are digits: their list, most significant first. *)
Fixpoint digits (s : string) : option (list Z) :=
  match s with
  | EmptyString => Some []
  | String c rest =>
      match digit_val c, digits rest with
      | Some d, Some ds => Some (d :: ds)
      | _, _ => None
      end
  end.

Definition horner (ds : list Z) : Z := fold_left (fun acc d => acc * 10 + d)%Z ds 0%Z.

(** An optional leading sign. *)
Definition split_sign (s : string) : Z * string :=
  match s with
  | String "-" rest => (-1, rest)%Z
  | String "+" rest => (1, rest)%Z
  | _ => (1, s)%Z
  end.

(** Text before and after the first ['.']. *)
Fixpoint split_dot (s : string) : string * option string :=
  match s with
  | EmptyString => ("", None)
  | String "." rest => ("", Some rest)
  | String c rest => let (a, b) := split_dot rest in (String c a, b)
  end.

Definition parse_int (s : string) : option Z :=
  let (sg, body) := split_sign s in
  match digits body with
  | Some ((_ :: _) as ds) => Some (sg * horner ds)%Z
  | _ => None
  end.

(** Decimal text [[+-]digits[.digits]] with at least one digit. *)
Definition parse_decimal (s : string) : option pyfloat :=
  let (sg, body) := split_sign s in
  let (ip, fp) := split_dot body in
  let fr := match fp with Some f => f | None => "" end in
  match digits ip, digits fr with
  | Some ids, Some fds =>
      if (length ids + length fds =? 0)%nat then None
      else Some (PFin (sg * horner (ids ++ fds))%Z (length fds))
  | _, _ => None
  end.

(** ** Column coercion *)

Definition to_int (col : string) (c : cell) : result Z :=
  if is_na c then Err (ValueError col)
  else match c with
       | Some s => match parse_int s with
                   | Some z => Ok z
                   | None => Err (ValueError col)
                   end
       | None => Err (ValueError col)
       end.

Definition to_float (col : string) (c : cell) : result pyfloat :=
  if is_na c then Ok PNaN
  else match c with
       | Some s => match parse_decimal s with
                   | Some f => Ok f
                   | None => Err (ValueError col)
                   end
       | None => Ok PNaN
       end.

Definition to_object (c : cell) : pyobj :=
  if is_na c then None else c.

(** ** [dd.read_csv(path, sep='\t', names=column_names, dtype=dtypes)] *)

Definition ncols : nat := length column_names.

(** The cell of column [i]: [None] past the end of a short row. *)
Definition cell_at (fields : list string) (i : nat) : cell := nth_error fields i.
Arguments cell_at : simpl never.

(** Coerce the cells of one tokenised row to the declared dtypes. *)
Definition make_record (f : list string) : result record :=
  gid <- to_int "geonameid" (cell_at f 0) ;;
  lat <- to_float "latitude" (cell_at f 4) ;;
  lon <- to_float "longitude" (cell_at f 5) ;;
  pop <- to_int "population" (cell_at f 14) ;;
  elev <- to_float "elevation" (cell_at f 15) ;;
  d <- to_int "dem" (cell_at f 16) ;;
  Ok {| geonameid := gid;
        name := to_object (cell_at f 1);
        asciiname := to_object (cell_at f 2);
        alternatenames := to_object (cell_at f 3);
        latitude := lat;
        longitude := lon;
        feature_class := to_object (cell_at f 6);
        feature_code := to_object (cell_at f 7);
        country_code := to_object (cell_at f 8);
        cc2 := to_object (cell_at f 9);
        admin1_code := to_object (cell_at f 10);
        admin2_code := to_object (cell_at f 11);
        admin3_code := to_object (cell_at f 12);
        admin4_code := to_object (cell_at f 13);
        population := pop;
        elevation := elev;
        dem := d;
        timezone := to_object (cell_at f 17);
        modification_date := to_object (cell_at f 18) |}.

(** One line: a row with more fields than [names] is a tokenising error,
    a shorter row is padded with missing cells. *)
Definition parse_line (lineno : nat) (line : string) : result record :=
  let f := split_tab line in
  if (ncols <? length f)%nat then Err (ParserError lineno) else make_record f.

(** Blank lines are skipped ([skip_blank_lines=True]). *)
Definition is_blank (line : string) : bool := String.eqb line "".

(** A text file is its list of lines. *)
Definition file := list string.

(** Parse the lines of one block, numbering them from [n]. *)
Fixpoint parse_lines (n : nat) (ls : list string) : result (list record) :=
  match ls with
  | [] => Ok []
  | l :: rest =>
      if is_blank l then parse_lines (S n) rest
      else r <- parse_line n l ;; rs <- parse_lines (S n) rest ;; Ok (r :: rs)
  end.

(** A dask dataframe: its partitions, in order. *)
Definition ddf := list (list record).

(** [compute()]: the partitions concatenated in order. *)
Definition compute (d : ddf) : list record := concat d.

(** [dd.read_csv] cuts a file into blocks at line boundaries and parses each
    block into one partition. *)
Fixpoint read_blocks (n : nat) (blocks : list file) : result ddf :=
  match blocks with
  | [] => Ok []
  | b :: bs =>
      p <- parse_lines n b ;; ps <- read_blocks (n + length b) bs ;; Ok (p :: ps)
  end.

Definition read_csv (blocks : list file) : result ddf := read_blocks 0 blocks.

(** [dd.concat(dd_list)]: the partitions of each frame, in the given order. *)
Definition dd_concat (l : list ddf) : ddf := concat l.

(** The loop of the notebook: one [read_csv] per country file, then
    [dd.concat]. *)
Definition load_sources (sources : list (list file)) : result ddf :=
  dd_list <- mapM read_csv sources ;; Ok (dd_concat dd_list).

(** ** [merged_dd[merged_dd['feature class'] == v]] *)

(** Object-column equality with a string: NaN compares unequal. *)
Definition obj_eqb (o : pyobj) (v : string) : bool :=
  match o with
  | Some s => String.eqb s v
  | None => false
  end.

(** The boolean mask, applied partition by partition. *)
Definition row_filter (v : string) (d : ddf) : ddf :=
  map (filter (fun r => obj_eqb (feature_class r) v)) d.

Definition mountain_dd (merged : ddf) : ddf := row_filter "T" merged.

(** ** [dg.points_from_xy(df, 'longitude', 'latitude', crs=...)] *)

Inductive geometry := Point (x y : pyfloat).

Definition geom_x (g : geometry) : pyfloat := let 'Point x _ := g in x.
Definition geom_y (g : geometry) : pyfloat := let 'Point _ y := g in y.

(** A row with its [geometry] column. *)
Record spatial_record := mkSpatial {
  attrs : record;
  geom : geometry }.

(** shapely's [points(x, y)]: one point per row, no validation. *)
Definition point_of (r : record) : geometry := Point (longitude r) (latitude r).

Definition points_from_xy_part (p : list record) : list spatial_record :=
  map (fun r => mkSpatial r (point_of r)) p.

(** [mountain_dd['geometry'] = ...] followed by [dg.from_dask_dataframe]:
    a dask GeoDataFrame, one CRS for the collection. *)
Record dgdf := mkDgdf {
  dg_crs : string;
  dg_parts : list (list spatial_record) }.

Definition points_from_xy (d : ddf) (crs : string) : dgdf :=
  mkDgdf crs (map points_from_xy_part d).

(** [compute()] on the dask GeoDataFrame: an in-memory GeoDataFrame. *)
Record gdf := mkGdf {
  gdf_crs : string;
  gdf_rows : list spatial_record }.

Definition compute_gdf (d : dgdf) : gdf := mkGdf (dg_crs d) (concat (dg_parts d)).

(** ** [GeoDataFrame.to_file(driver='GPKG', filename, layer, encoding)] *)

Record layer := mkLayer {
  layer_crs : string;
  layer_encoding : string;
  layer_rows : list spatial_record }.

(** A GeoPackage: its named layers. *)
Definition container := list (string * layer).

(** The files of the output folder: path to GeoPackage. *)
Definition filesystem := list (string * container).

Fixpoint assoc {A} (k : string) (l : list (string * A)) : option A :=
  match l with
  | [] => None
  | (k', a) :: rest => if String.eqb k k' then Some a else assoc k rest
  end.

(** Replace the entry [k], or add it at the end. *)
Fixpoint assoc_set {A} (k : string) (a : A) (l : list (string * A)) : list (string * A) :=
  match l with
  | [] => [(k, a)]
  | (k', a') :: rest =>
      if String.eqb k k' then (k, a) :: rest else (k', a') :: assoc_set k a rest
  end.

(** The GeoPackage at [path]; an absent file is an empty container. *)
Definition container_at (path : string) (fs : filesystem) : container :=
  match assoc path fs with Some c => c | None => [] end.

Inductive mode := Mode (m : string).

(** geopandas' default [mode="w"]. *)
Definition default_mode : mode := Mode "w".

Definition to_file (fs : filesystem) (df : gdf) (filename lname encoding : string)
    (md : mode) : result filesystem :=
  let cont := container_at filename fs in
  let new_layer := mkLayer (gdf_crs df) encoding (gdf_rows df) in
  let 'Mode m := md in
  if String.eqb m "w" then
    Ok (assoc_set filename (assoc_set lname new_layer cont) fs)
  else if String.eqb m "a" then
    let l := match assoc lname cont with
             | Some old => mkLayer (layer_crs old) (layer_encoding old)
                             (layer_rows old ++ gdf_rows df)
             | None => new_layer
             end in
    Ok (assoc_set filename (assoc_set lname l cont) fs)
  else Err (ModeError m).

(** ** The notebook, end to end *)

Definition output_path : string := "output/mountains.gpkg".

(** One run from the loaded sources to the written layer, for a filter value,
    a CRS, a layer name and an encoding. *)
Definition run_pipeline (v crs lname enc : string) (fs : filesystem)
    (sources : list (list file)) : result filesystem :=
  merged_dd <- load_sources sources ;;
  let mountain := row_filter v merged_dd in
  let mountain_df := compute_gdf (points_from_xy mountain crs) in
  to_file fs mountain_df output_path lname enc default_mode.

(** The notebook's run. *)
Definition pipeline (fs : filesystem) (sources : list (list file)) : result filesystem :=
  run_pipeline "T" "EPSG:4326" "mountains" "utf-8" fs sources.

(** ** Local files: folder setup, [download] and extraction *)

(** A local file: plain text, or a zip archive of named text members. *)
Inductive blob :=
  | Text (s : string)
  | Archive (members : list (string * string)).

Record disk := mkDisk {
  disk_dirs : list string;
  disk_files : list (string * blob) }.

Inductive os_error :=
  | URLError (url : string)               (** [urlretrieve] could not fetch *)
  | FileNotFoundError (path : string)
  | IsADirectoryError (path : string)
  | BadZipFile (path : string).

(** [os.path.exists]: a directory or a file. *)
Definition os_path_exists (d : disk) (p : string) : bool :=
  existsb (String.eqb p) (disk_dirs d)
  || match assoc p (disk_files d) with Some _ => true | None => false end.

Definition os_mkdir (d : disk) (p : string) : disk := mkDisk (p :: disk_dirs d) (disk_files d).

Definition data_folder : string := "data".
Definition output_folder : string := "output".

(** [if not os.path.exists(p): os.mkdir(p)] *)
Definition ensure_folder (d : disk) (p : string) : disk :=
  if os_path_exists d p then d else os_mkdir d p.

(** The cell creating [data_folder] and [output_folder]. *)
Definition setup_folders (d : disk) : disk :=
  ensure_folder (ensure_folder d data_folder) output_folder.

Fixpoint has_slash (s : string) : bool :=
  match s with
  | EmptyString => false
  | String c rest => Ascii.eqb c "/"%char || has_slash rest
  end.

Fixpoint last_char (s : string) : option ascii :=
  match s with
  | EmptyString => None
  | String c EmptyString => Some c
  | String _ rest => last_char rest
  end.

(** [os.path.join(a, b)] on POSIX. *)
Definition os_path_join (a b : string) : string :=
  match b with
  | String "/" _ => b
  | _ =>
      if String.eqb a "" then b
      else match last_char a with
           | Some "/"%char => a ++ b
           | _ => a ++ "/" ++ b
           end
  end.

(** [os.path.basename(p)]: the text after the last ['/']. *)
Fixpoint basename (s : string) : string :=
  match s with
  | EmptyString => EmptyString
  | String c rest =>
      if has_slash rest then basename rest
      else if Ascii.eqb c "/"%char then rest else s
  end.

(** The remote server: the archive served at a URL, or [None] when
    [urlretrieve] raises. *)
Definition remote := string -> option blob.

(** [download(url)]: the disk after the call and the lines it prints. *)
Definition download (srv : remote) (d : disk) (url : string) : (disk * list string) + os_error :=
  let filename := os_path_join data_folder (basename url) in
  if os_path_exists d filename then inl (d, [])
  else match srv url with
       | Some b => inl (mkDisk (disk_dirs d) (assoc_set filename b (disk_files d)),
                        ["Downloaded " ++ filename])
       | None => inr (URLError url)
       end.

(** The file [download] writes for a URL. *)
Definition zip_target (url : string) : string := os_path_join data_folder (basename url).

Definition countries : list string := ["US"; "MX"; "CA"].

Definition download_url : string := "https://download.geonames.org/export/dump/".


(** [str.split('/')] *)
Fixpoint split_slash (s : string) : list string :=
  match s with
  | EmptyString => [""]
  | String c rest =>
      if Ascii.eqb c "/"%char then "" :: split_slash rest
      else match split_slash rest with
           | f :: fs => String c f :: fs
           | [] => [String c ""]
           end
  end.

Fixpoint join_slash (l : list string) : string :=
  match l with
  | [] => ""
  | [x] => x
  | x :: xs => x ++ "/" ++ join_slash xs
  end.

(** [ZipFile._extract_member]: the member name with its empty, ["."] and
    [".."] components dropped. *)
Definition sanitize (m : string) : string :=
  join_slash (filter (fun x => negb (existsb (String.eqb x) [""; "."; ".."])) (split_slash m)).

(** [ZipFile.extractall(folder)] for file members: each member is written,
    in order, to [os.path.join(folder, sanitized name)], replacing what was
    there (parent directories of nested members are not recorded). *)
Definition extractall (d : disk) (folder : string) (ms : list (string * string)) : disk :=
  fold_left (fun d' m => mkDisk (disk_dirs d')
                           (assoc_set (os_path_join folder (sanitize (fst m)))
                              (Text (snd m)) (disk_files d'))) ms d.

(** [with zipfile.ZipFile(zip_file_path) as f: f.extractall(data_folder)] *)
Definition extract_country (d : disk) (c : string) : disk + os_error :=
  let p := os_path_join data_folder (c ++ ".zip") in
  match assoc p (disk_files d) with
  | Some (Archive ms) => inl (extractall d data_folder ms)
  | Some (Text _) => inr (BadZipFile p)
  | None => if existsb (String.eqb p) (disk_dirs d)
            then inr (IsADirectoryError p) else inr (FileNotFoundError p)
  end.

Fixpoint extract_all (d : disk) (cs : list string) : disk + os_error :=
  match cs with
  | [] => inl d
  | c :: cs' =>
      match extract_country d c with
      | inl d1 => extract_all d1 cs'
      | inr e => inr e
      end
  end.

(** ** Auxiliary notions *)




Definition is_class (v : string) (r : record) : bool := obj_eqb (feature_class r) v.

(** [l1] is [l2] with some elements dropped, the rest in their order. *)
Inductive subseq {A} : list A -> list A -> Prop :=
  | subseq_nil : subseq [] []
  | subseq_keep x l1 l2 : subseq l1 l2 -> subseq (x :: l1) (x :: l2)
  | subseq_drop x l1 l2 : subseq l1 l2 -> subseq l1 (x :: l2).

(** ** Sample input *)

Fixpoint join_tab (l : list string) : string :=
  match l with
  | [] => ""
  | [x] => x
  | x :: xs => x ++ String TAB "" ++ join_tab xs
  end.

(** A GeoNames line with the given id, feature class and coordinates. *)
Definition sample_line (id fc lat lon : string) : string :=
  join_tab [id; "Mount Logan"; "Mount Logan"; ""; lat; lon; fc; "MT"; "CA"; "";
            "12"; ""; ""; ""; "0"; ""; "5959"; "America/Whitehorse"; "2022-09-01"].

(** The record such a line loads to. *)
Definition sample_record (id : Z) (fc : string) (lat lon : pyfloat) : record :=
  {| geonameid := id; name := Some "Mount Logan"; asciiname := Some "Mount Logan";
     alternatenames := None; latitude := lat; longitude := lon;
     feature_class := Some fc; feature_code := Some "MT"; country_code := Some "CA";
     cc2 := None; admin1_code := Some "12"; admin2_code := None; admin3_code := None;
     admin4_code := None; population := 0; elevation := PNaN; dem := 5959;
     timezone := Some "America/Whitehorse"; modification_date := Some "2022-09-01" |}.

Definition logan : record := sample_record 5993266 "T" (PFin 6056705 5) (PFin (-14040193) 5).

Definition logan_spatial : spatial_record :=
  mkSpatial logan (Point (longitude logan) (latitude logan)).



(** An existing GeoPackage with a ["mountains"] layer and a ["lakes"] layer. *)
Definition old_layer : layer := mkLayer "EPSG:4326" "utf-8" [].

Definition lakes_layer : layer := mkLayer "EPSG:4326" "utf-8" [].

Definition existing_fs : filesystem :=
  [(output_path, [("mountains", old_layer); ("lakes", lakes_layer)])].



(** Two country files of one line each, and what they load to. *)
Definition ca_line : string := sample_line "5993266" "T" "60.56705" "-140.40193".
Definition mx_line : string := sample_line "3521992" "P" "19.0" "-97.5".

Definition ca_sources : list (list file) := [[[ca_line]]].
Definition mx_sources : list (list file) := [[[mx_line]]].

Definition ca_dd : ddf := [[logan]].
Definition mx_dd : ddf := [[sample_record 3521992 "P" (PFin 190 1) (PFin (-975) 1)]].

(** One file read as a single block, or cut into two blocks. *)
Definition one_block : list (list file) := [[[ca_line; ""; mx_line]]].




(** * Properties *)

(** ** The result monad *)

Lemma bind_ok_inv {A B} (m : result A) (f : A -> result B) b :
  bind m f = Ok b -> exists a, m = Ok a /\ f a = Ok b.
Proof. destruct m; simpl; [eauto | discriminate]. Qed.


Lemma bind_ok_r {A} (m : result A) : bind m (fun a => Ok a) = m.
Proof. destruct m; reflexivity. Qed.

(** ** Row filter *)

Lemma obj_eqb_spec o v : obj_eqb o v = true <-> o = Some v.
Proof.
  destruct o as [s|]; simpl; [rewrite String.eqb_eq|]; split; congruence.
Qed.

(** Filtering partition by partition is filtering the materialised frame. *)
Lemma compute_row_filter v d :
  compute (row_filter v d) = filter (is_class v) (compute d).
Proof.
  unfold compute, row_filter. induction d as [|p d IH]; simpl; [reflexivity|].
  rewrite filter_app, IH. reflexivity.
Qed.

Lemma filter_subseq {A} (p : A -> bool) l : subseq (filter p l) l.
Proof.
  induction l as [|x l IH]; simpl; [constructor|].
  destruct (p x); constructor; exact IH.
Qed.

(** ** Geometry builder *)

Lemma compute_points_from_xy d crs :
  compute_gdf (points_from_xy d crs) = mkGdf crs (points_from_xy_part (compute d)).
Proof.
  unfold compute_gdf, points_from_xy, compute, points_from_xy_part; simpl. f_equal.
  induction d as [|p d IH]; simpl; [reflexivity|]. rewrite map_app, IH. reflexivity.
Qed.

Lemma float_eqb_refl a : a <> PNaN -> float_eqb a a = true.
Proof.
  destruct a as [m k|]; simpl; [intros _; apply Z.eqb_refl | congruence].
Qed.

(** *** C1 *)

(** C1: filtering on [feature class == v] keeps exactly the records of the
    dataset whose feature class is [v]; a kept record is the record of the
    dataset itself, every attribute unchanged. *)
Theorem row_filter_exact (v : string) (D : ddf) (r : record) :
  In r (compute (row_filter v D)) <-> In r (compute D) /\ feature_class r = Some v.
Proof.
  rewrite compute_row_filter, filter_In. unfold is_class. rewrite obj_eqb_spec.
  reflexivity.
Qed.

(** *** C9 *)

(** C9: the filtered dataset is the subsequence of the dataset's rows (in the
    order of the concatenated partitions) whose feature class is [v]; no row
    is reordered. *)
Theorem row_filter_stable (v : string) (D : ddf) :
  compute (row_filter v D) = filter (is_class v) (compute D)
  /\ subseq (compute (row_filter v D)) (compute D).
Proof.
  rewrite compute_row_filter. split; [reflexivity | apply filter_subseq].
Qed.

(** *** C2 *)

(** C2: every row of the GeoDataFrame built from the filtered dataset carries
    [Point(longitude, latitude)] of its own record, which is a record of the
    filtered dataset; for numeric (non-NaN) coordinates, [x] and [y] of the
    point compare equal to the longitude and latitude. *)
Theorem geometry_roundtrip (v crs : string) (D : ddf) (s : spatial_record) :
  In s (gdf_rows (compute_gdf (points_from_xy (row_filter v D) crs))) ->
  In (attrs s) (compute (row_filter v D))
  /\ geom s = Point (longitude (attrs s)) (latitude (attrs s))
  /\ (longitude (attrs s) <> PNaN -> float_eqb (geom_x (geom s)) (longitude (attrs s)) = true)
  /\ (latitude (attrs s) <> PNaN -> float_eqb (geom_y (geom s)) (latitude (attrs s)) = true).
Proof.
  rewrite compute_points_from_xy; simpl. unfold points_from_xy_part.
  intros Hin. apply in_map_iff in Hin as [r [<- Hr]]; simpl.
  split; [exact Hr|]. split; [reflexivity|].
  split; apply float_eqb_refl.
Qed.

Lemma geometry_roundtrip_witness :
  In logan_spatial
     (gdf_rows (compute_gdf (points_from_xy (row_filter "T" [[logan]]) "EPSG:4326")))
  /\ float_eqb (geom_x (geom logan_spatial)) (PFin (-14040193) 5) = true.
Proof.
  assert (H : In logan_spatial
     (gdf_rows (compute_gdf (points_from_xy (row_filter "T" [[logan]]) "EPSG:4326"))))
    by (vm_compute; left; reflexivity).
  split; [exact H|].
  destruct (geometry_roundtrip "T" "EPSG:4326" [[logan]] _ H) as [_ [_ [Hx _]]].
  apply Hx. discriminate.
Defined.

(** *** C3 *)



(** ** Association lists *)

Lemma assoc_set_same {A} k (a : A) l : assoc k (assoc_set k a l) = Some a.
Proof.
  induction l as [|[k' a'] l IH]; simpl.
  - rewrite String.eqb_refl. reflexivity.
  - destruct (String.eqb k k') eqn:E; simpl.
    + rewrite String.eqb_refl. reflexivity.
    + rewrite E. exact IH.
Qed.

Lemma assoc_set_other {A} k n (a : A) l : n <> k -> assoc n (assoc_set k a l) = assoc n l.
Proof.
  intros Hne. induction l as [|[k' a'] l IH]; simpl.
  - apply String.eqb_neq in Hne. rewrite Hne. reflexivity.
  - destruct (String.eqb k k') eqn:E; simpl.
    + apply String.eqb_eq in E. subst k'.
      apply String.eqb_neq in Hne. rewrite Hne. reflexivity.
    + destruct (String.eqb n k'); [reflexivity | exact IH].
Qed.

Lemma container_at_set p c fs : container_at p (assoc_set p c fs) = c.
Proof. unfold container_at. rewrite assoc_set_same. reflexivity. Qed.

(** *** C5 *)




(** ** Loader *)









(** *** C6 *)




(** ** Blocks, files and sources *)





Lemma mapM_app {A B} (f : A -> result B) l1 l2 :
  mapM f (l1 ++ l2) = (a <- mapM f l1 ;; b <- mapM f l2 ;; Ok (a ++ b)%list).
Proof.
  induction l1 as [|x l1 IH]; simpl.
  - destruct (mapM f l2); reflexivity.
  - destruct (f x); simpl; [|reflexivity].
    rewrite IH. destruct (mapM f l1); simpl; [|reflexivity].
    destruct (mapM f l2); reflexivity.
Qed.

Lemma load_sources_app s1 s2 :
  load_sources (s1 ++ s2)
  = (d1 <- load_sources s1 ;; d2 <- load_sources s2 ;; Ok (d1 ++ d2)%list).
Proof.
  unfold load_sources. rewrite mapM_app.
  destruct (mapM read_csv s1); simpl; [|reflexivity].
  destruct (mapM read_csv s2); simpl; [|reflexivity].
  unfold dd_concat. rewrite concat_app. reflexivity.
Qed.

(** A run only looks at the materialised rows of the loaded frame. *)
Lemma run_pipeline_compute v crs lname enc fs s :
  run_pipeline v crs lname enc fs s
  = bind (load_sources s) (fun d =>
      to_file fs (mkGdf crs (points_from_xy_part (filter (is_class v) (compute d))))
        output_path lname enc default_mode).
Proof.
  unfold run_pipeline. destruct (load_sources s) as [d|e]; [|reflexivity]. cbn [bind].
  rewrite compute_points_from_xy, compute_row_filter. reflexivity.
Qed.


(** *** C7 *)

(** C7: loading two lists of sources separately and concatenating the frames
    is loading the joined list of sources; the rows are those of the first
    followed by those of the second, nothing dropped or merged, and loading
    them in the other order gives the same rows up to order. *)
Theorem load_concat_union (s1 s2 : list (list file)) (D1 D2 : ddf) :
  load_sources s1 = Ok D1 -> load_sources s2 = Ok D2 ->
  load_sources (s1 ++ s2) = Ok (dd_concat [D1; D2])
  /\ compute (dd_concat [D1; D2]) = (compute D1 ++ compute D2)%list
  /\ exists D', load_sources (s2 ++ s1) = Ok D'
       /\ Permutation (compute D') (compute D1 ++ compute D2)%list.
Proof.
  intros H1 H2.
  assert (Hcat : forall A B : ddf, dd_concat [A; B] = (A ++ B)%list)
    by (intros; unfold dd_concat; simpl; rewrite app_nil_r; reflexivity).
  rewrite !load_sources_app, H1, H2. cbn [bind].
  rewrite Hcat. unfold compute. rewrite !concat_app.
  split; [reflexivity|]. split; [reflexivity|].
  eexists; split; [reflexivity|]. rewrite concat_app. apply Permutation_app_comm.
Qed.

Lemma load_concat_union_witness :
  load_sources ca_sources = Ok ca_dd /\ load_sources mx_sources = Ok mx_dd
  /\ load_sources (ca_sources ++ mx_sources) = Ok (dd_concat [ca_dd; mx_dd]).
Proof.
  assert (H1 : load_sources ca_sources = Ok ca_dd) by (vm_compute; reflexivity).
  assert (H2 : load_sources mx_sources = Ok mx_dd) by (vm_compute; reflexivity).
  split; [exact H1|]. split; [exact H2|].
  destruct (load_concat_union ca_sources mx_sources ca_dd mx_dd H1 H2) as [H _].
  exact H.
Defined.

(** *** C10 *)



(** ** Provenance and failure of loaded rows *)










(** *** C8 *)



(** * Further properties of the notebook *)

(** ** Folder setup *)

Lemma ensure_folder_exists d p : os_path_exists (ensure_folder d p) p = true.
Proof.
  unfold ensure_folder. destruct (os_path_exists d p) eqn:E; [exact E|].
  unfold os_path_exists, os_mkdir; simpl. rewrite String.eqb_refl. reflexivity.
Qed.

Lemma ensure_folder_mono d p q :
  os_path_exists d q = true -> os_path_exists (ensure_folder d p) q = true.
Proof.
  unfold ensure_folder. destruct (os_path_exists d p); [auto|].
  unfold os_path_exists, os_mkdir; simpl. intros H.
  destruct (String.eqb q p); simpl; [reflexivity | exact H].
Qed.

Lemma ensure_folder_files d p : disk_files (ensure_folder d p) = disk_files d.
Proof. unfold ensure_folder. destruct (os_path_exists d p); reflexivity. Qed.

Lemma ensure_folder_id d p : os_path_exists d p = true -> ensure_folder d p = d.
Proof. unfold ensure_folder. intros ->. reflexivity. Qed.

(** The folder cell leaves both folders in place, keeps every path that
    existed and every file as it was, and running it again changes nothing. *)
Theorem setup_folders_spec (d : disk) :
  os_path_exists (setup_folders d) data_folder = true
  /\ os_path_exists (setup_folders d) output_folder = true
  /\ disk_files (setup_folders d) = disk_files d
  /\ (forall p, os_path_exists d p = true -> os_path_exists (setup_folders d) p = true)
  /\ setup_folders (setup_folders d) = setup_folders d.
Proof.
  unfold setup_folders.
  assert (Hd : os_path_exists (ensure_folder (ensure_folder d data_folder) output_folder)
                 data_folder = true)
    by (apply ensure_folder_mono, ensure_folder_exists).
  assert (Ho : os_path_exists (ensure_folder (ensure_folder d data_folder) output_folder)
                 output_folder = true) by apply ensure_folder_exists.
  split; [exact Hd|]. split; [exact Ho|]. split.
  - rewrite !ensure_folder_files. reflexivity.
  - split.
    + intros p Hp. apply ensure_folder_mono, ensure_folder_mono, Hp.
    + rewrite (ensure_folder_id _ data_folder Hd), (ensure_folder_id _ output_folder Ho).
      reflexivity.
Qed.

(** ** [download] *)

Lemma exists_files d p b : assoc p (disk_files d) = Some b -> os_path_exists d p = true.
Proof. unfold os_path_exists. intros ->. apply orb_true_r. Qed.


(** A successful [download] leaves its target file in place, keeps the
    folders and every other file, and prints one line exactly when it
    fetched. *)
Theorem download_spec (srv : remote) (d d' : disk) (url : string) (out : list string) :
  download srv d url = inl (d', out) ->
  os_path_exists d' (os_path_join data_folder (basename url)) = true
  /\ disk_dirs d' = disk_dirs d
  /\ (forall p, p <> os_path_join data_folder (basename url) ->
        assoc p (disk_files d') = assoc p (disk_files d))
  /\ (forall p, os_path_exists d p = true -> os_path_exists d' p = true)
  /\ (out = [] <-> os_path_exists d (os_path_join data_folder (basename url)) = true).
Proof.
  unfold download. set (t := os_path_join data_folder (basename url)).
  destruct (os_path_exists d t) eqn:E.
  - intros H. injection H as <- <-. split; [exact E|]. split; [reflexivity|].
    split; [reflexivity|]. split; [auto|]. split; reflexivity.
  - destruct (srv url) as [b|]; [|discriminate]. intros H. injection H as <- <-.
    split; [apply (exists_files _ _ b); simpl; apply assoc_set_same|].
    split; [reflexivity|]. split.
    + intros p Hp. simpl. apply assoc_set_other, Hp.
    + split.
      * intros p Hp. unfold os_path_exists in *; simpl.
        destruct (existsb (String.eqb p) (disk_dirs d)); [reflexivity|]. simpl in *.
        destruct (String.eqb_spec p t) as [->|Hne].
        -- rewrite assoc_set_same. reflexivity.
        -- rewrite assoc_set_other by exact Hne. exact Hp.
      * split; discriminate.
Qed.



Lemma str_app_assoc (a b c : string) : ((a ++ b) ++ c)%string = (a ++ (b ++ c))%string.
Proof. induction a as [|x a IH]; simpl; [reflexivity | rewrite IH; reflexivity]. Qed.

Lemma has_slash_app a b : has_slash (a ++ b) = has_slash a || has_slash b.
Proof. induction a as [|x a IH]; simpl; [reflexivity | rewrite IH, orb_assoc; reflexivity]. Qed.

Lemma basename_after_slash p t :
  has_slash t = false -> basename (p ++ String "/" t) = t.
Proof.
  intros Ht. induction p as [|x p IH]; simpl.
  - rewrite Ht. reflexivity.
  - rewrite has_slash_app. simpl. rewrite orb_true_r. exact IH.
Qed.

Lemma join_data_rel b : has_slash b = false -> os_path_join data_folder b = ("data/" ++ b)%string.
Proof.
  intros H. destruct b as [|a b']; [reflexivity|].
  destruct a as [[] [] [] [] [] [] [] []]; try reflexivity; simpl in H; discriminate H.
Qed.

(** For a country code without ['/'], the archive of the country is saved as
    ["data/" + code + ".zip"]. *)
Theorem zip_target_country (c : string) :
  has_slash c = false ->
  zip_target (download_url ++ c ++ ".zip") = ("data/" ++ c ++ ".zip")%string.
Proof.
  intros Hc. unfold zip_target.
  change download_url with ("https://download.geonames.org/export/dump" ++ String "/" "")%string.
  rewrite str_app_assoc. simpl (String "/" "" ++ _)%string.
  rewrite basename_after_slash by (rewrite has_slash_app, Hc; reflexivity).
  apply join_data_rel. rewrite has_slash_app, Hc. reflexivity.
Qed.

Lemma zip_target_country_witness :
  has_slash "US" = false /\ zip_target (download_url ++ "US" ++ ".zip") = "data/US.zip".
Proof.
  assert (H : has_slash "US" = false) by reflexivity.
  split; [exact H | exact (zip_target_country "US" H)].
Defined.

(** ** Extraction *)



(** ** Filtering and geometry *)

Lemma filter_filter_comm {A} (p q : A -> bool) l :
  filter p (filter q l) = filter (fun x => q x && p x) l.
Proof.
  induction l as [|x l IH]; simpl; [reflexivity|].
  destruct (q x); simpl; [destruct (p x); simpl; rewrite IH|]; reflexivity || exact IH.
Qed.

Lemma filter_ext_l {A} (p q : A -> bool) l : (forall x, p x = q x) -> filter p l = filter q l.
Proof. intros H. induction l as [|x l IH]; simpl; [|rewrite H, IH]; reflexivity. Qed.

(** Filtering is idempotent, two filters commute, and filters on two
    different feature classes select nothing. *)
Theorem row_filter_compose (v w : string) (D : ddf) :
  row_filter v (row_filter v D) = row_filter v D
  /\ row_filter v (row_filter w D) = row_filter w (row_filter v D)
  /\ (v <> w -> compute (row_filter v (row_filter w D)) = []).
Proof.
  unfold row_filter. rewrite !map_map. split; [|split].
  - apply map_ext. intros p. rewrite filter_filter_comm.
    apply filter_ext_l. intros r. apply andb_diag.
  - apply map_ext. intros p. rewrite !filter_filter_comm.
    apply filter_ext_l. intros r. apply andb_comm.
  - intros Hne. unfold compute. induction D as [|p D IH]; simpl; [reflexivity|].
    rewrite IH, app_nil_r, filter_filter_comm.
    induction p as [|r p IHp]; simpl; [reflexivity|].
    destruct (obj_eqb (feature_class r) w) eqn:Ew; simpl; [|exact IHp].
    apply obj_eqb_spec in Ew. rewrite Ew. simpl.
    destruct (String.eqb_spec w v) as [->|_]; [congruence | exact IHp].
Qed.

Lemma row_filter_compose_witness :
  "T" <> "P" /\ compute (row_filter "T" (row_filter "P" (dd_concat [ca_dd; mx_dd]))) = [].
Proof.
  assert (H : "T" <> "P") by discriminate.
  split; [exact H|].
  destruct (row_filter_compose "T" "P" (dd_concat [ca_dd; mx_dd])) as [_ [_ Hd]].
  exact (Hd H).
Defined.


(** ** The written output *)

Lemma to_file_w fs df path lname enc :
  to_file fs df path lname enc default_mode
  = Ok (assoc_set path (assoc_set lname (mkLayer (gdf_crs df) enc (gdf_rows df))
                          (container_at path fs)) fs).
Proof. reflexivity. Qed.

Lemma assoc_set_idem {A} k (a : A) l : assoc_set k a (assoc_set k a l) = assoc_set k a l.
Proof.
  induction l as [|[k' a'] l IH]; simpl.
  - rewrite String.eqb_refl. reflexivity.
  - destruct (String.eqb k k') eqn:E; simpl.
    + rewrite String.eqb_refl. reflexivity.
    + rewrite E, IH. reflexivity.
Qed.



(** Running the notebook again over the same sources leaves the output as
    the first run left it. *)
Theorem pipeline_rerun (fs fs' : filesystem) (s : list (list file)) :
  pipeline fs s = Ok fs' -> pipeline fs' s = Ok fs'.
Proof.
  unfold pipeline. rewrite !run_pipeline_compute.
  destruct (load_sources s) as [D|e]; cbn [bind]; [|discriminate].
  rewrite !to_file_w. intros H. injection H as <-.
  rewrite container_at_set, assoc_set_idem, assoc_set_idem. reflexivity.
Qed.

Lemma pipeline_rerun_witness :
  exists fs', pipeline existing_fs one_block = Ok fs' /\ pipeline fs' one_block = Ok fs'.
Proof.
  destruct (pipeline existing_fs one_block) as [fs'|e] eqn:H;
    [|vm_compute in H; discriminate].
  exists fs'. split; [reflexivity|]. exact (pipeline_rerun _ _ _ H).
Defined.

(** ** Loader *)










Lemma download_spec_witness :
  os_path_exists (mkDisk ["data"] [(zip_target (download_url ++ "US.zip"), Archive [])])
    (zip_target (download_url ++ "US.zip")) = true
  /\ disk_dirs (mkDisk ["data"] [(zip_target (download_url ++ "US.zip"), Archive [])]) = ["data"].
Proof.
  destruct (download_spec (fun _ => Some (Archive [])) (mkDisk ["data"] [])
              (mkDisk ["data"] [(zip_target (download_url ++ "US.zip"), Archive [])])
              (download_url ++ "US.zip") ["Downloaded data/US.zip"])
    as [Ht [Hd _]]; [vm_compute; reflexivity|].
  split; [exact Ht | exact Hd].
Defined.
